(** * SuperStore KPI dashboard: the filter, aggregation and ranking pipeline

    A shallow embedding of [CurrentDashboard_app.py].  The script is a
    straight-line Streamlit page: it narrows a data frame through four
    cascading select boxes and a date range, sums three numeric columns,
    groups them by day and by product, and ranks the products.

    Modelling choices, all read off the source:
    - a data frame is the list of its rows, in row order; boolean-mask
      indexing [df[mask]] is [filter];
    - a blank cell of a text column is [None] (the script itself drops
      them with [dropna()] before it offers options); a comparison of a
      blank cell with a string is false, and [groupby] leaves rows with a
      blank key out (pandas' default [dropna=True]);
    - [Order Date] is a [datetime64[ns]] value: an integer count of
      nanoseconds; the two sidebar dates are calendar days, turned into
      midnight instants by [pd.to_datetime];
    - [Sales] and [Profit] are exact rationals: the rounding of binary
      floating point is not modelled, so nothing below is stated about
      how float sums regroup or about the digits a format string prints;
      [Quantity] is a 64-bit integer whose sums wrap around;
    - a float division whose divisor is zero has no value ([None]). *)

From Stdlib Require Import List String Ascii ZArith QArith Qfield Bool Lia.
From Stdlib Require Import Permutation Sorted Orders OrdersEx.
Import ListNotations.

Local Open Scope Z_scope.

(** ** Data frames *)

Record Row := mkRow {
  Order_Date   : Z;
  Region       : option string;
  State        : option string;
  Category     : option string;
  Sub_Category : option string;
  Segment      : option string;
  Product_Name : option string;
  Sales        : Q;
  Quantity     : Z;
  Profit       : Q
}.

Definition DataFrame := list Row.

(** [df.empty] *)
Definition empty (df : DataFrame) : bool :=
  match df with [] => true | _ :: _ => false end.

(** [series == value] on a text column: a blank cell never compares equal. *)
Definition col_eq (cell : option string) (value : string) : bool :=
  match cell with
  | Some s => String.eqb s value
  | None => false
  end.

(** [series.dropna()] *)
Fixpoint dropna {K : Type} (col : list (option K)) : list K :=
  match col with
  | [] => []
  | Some v :: rest => v :: dropna rest
  | None :: rest => dropna rest
  end.

(** ** [unique()] and [sorted()] over an ordered key type *)

Section Keys.
Context {K : Type}.
Variable eqb : K -> K -> bool.
Variable leb : K -> K -> bool.

Definition seen_in (x : K) (seen : list K) : bool := existsb (eqb x) seen.

(** [unique()] keeps the first occurrence of each value, in order of
    appearance. *)
Fixpoint unique_from (seen : list K) (col : list K) : list K :=
  match col with
  | [] => []
  | x :: rest =>
      if seen_in x seen then unique_from seen rest
      else x :: unique_from (x :: seen) rest
  end.

Definition unique (col : list K) : list K := unique_from [] col.

(** Python's [sorted] is a stable sort; every stable sort computes the
    same list, written here as insertion from the right. *)
Fixpoint insort (x : K) (l : list K) : list K :=
  match l with
  | [] => [x]
  | y :: rest => if leb x y then x :: l else y :: insort x rest
  end.

Fixpoint sorted (l : list K) : list K :=
  match l with
  | [] => []
  | x :: rest => insort x (sorted rest)
  end.

(** The distinct non-missing values of a column, ascending. *)
Definition options (col : list (option K)) : list K :=
  sorted (unique (dropna col)).

(** Every element is at most every later one. *)
Definition ascending : list K -> Prop :=
  StronglySorted (fun x y => leb x y = true).
End Keys.

Definition str_options (col : list (option string)) : list string :=
  options String.eqb String.leb col.

(** ** Sidebar inputs *)

Inductive MetricKind := KSales | KQuantity | KProfit | KMargin_Rate.

(** What the user picked in the widgets.  [from_date] and [to_date] are
    [datetime.date] values, counted in days. *)
Record Inputs := mkInputs {
  selected_region   : string;
  selected_state    : string;
  selected_category : string;
  selected_subcat   : string;
  from_date         : Z;
  to_date           : Z;
  radio_kpi         : MetricKind
}.

Definition All : string := "All".

(** One categorical stage: [if selected != "All": df[df[col] == selected]
    else df]. *)
Definition narrow (col : Row -> option string) (selected : string)
    (df : DataFrame) : DataFrame :=
  if negb (String.eqb selected All)
  then filter (fun r => col_eq (col r) selected) df
  else df.

(** ** The filter cascade (lines 27-89) *)

Definition all_regions (df_original : DataFrame) : list string :=
  str_options (map Region df_original).

Definition df_filtered_region (df_original : DataFrame) (i : Inputs) : DataFrame :=
  narrow Region (selected_region i) df_original.

Definition all_states (df_original : DataFrame) (i : Inputs) : list string :=
  str_options (map State (df_filtered_region df_original i)).

Definition df_filtered_state (df_original : DataFrame) (i : Inputs) : DataFrame :=
  narrow State (selected_state i) (df_filtered_region df_original i).

Definition all_categories (df_original : DataFrame) (i : Inputs) : list string :=
  str_options (map Category (df_filtered_state df_original i)).

Definition df_filtered_category (df_original : DataFrame) (i : Inputs) : DataFrame :=
  narrow Category (selected_category i) (df_filtered_state df_original i).

Definition all_subcats (df_original : DataFrame) (i : Inputs) : list string :=
  str_options (map Sub_Category (df_filtered_category df_original i)).

(** [df] after line 63, before the date range is applied. *)
Definition df_subcat (df_original : DataFrame) (i : Inputs) : DataFrame :=
  narrow Sub_Category (selected_subcat i) (df_filtered_category df_original i).

(** [series.min()] and [series.max()] of a date column ([None] on an empty
    column, where pandas answers NaT). *)
Fixpoint col_min (col : list Z) : option Z :=
  match col with
  | [] => None
  | x :: rest => match col_min rest with
                 | None => Some x
                 | Some m => Some (Z.min x m)
                 end
  end.

Fixpoint col_max (col : list Z) : option Z :=
  match col with
  | [] => None
  | x :: rest => match col_max rest with
                 | None => Some x
                 | Some m => Some (Z.max x m)
                 end
  end.

(** The bounds offered by the two date widgets (lines 66-72). *)
Definition date_source (df_original : DataFrame) (i : Inputs) : DataFrame :=
  if empty (df_subcat df_original i) then df_original
  else df_subcat df_original i.

Definition min_date (df_original : DataFrame) (i : Inputs) : option Z :=
  col_min (map Order_Date (date_source df_original i)).

Definition max_date (df_original : DataFrame) (i : Inputs) : option Z :=
  col_max (map Order_Date (date_source df_original i)).

Definition ns_per_day : Z := 86400000000000.

(** [pd.to_datetime(d)] of a calendar day: that day at midnight. *)
Definition to_datetime (d : Z) : Z := d * ns_per_day.

(** The mask of lines 86-89. *)
Definition in_range (lo hi : Z) (r : Row) : bool :=
  (to_datetime lo <=? Order_Date r) && (Order_Date r <=? to_datetime hi).

Definition date_stage (lo hi : Z) (df : DataFrame) : DataFrame :=
  filter (in_range lo hi) df.

(** Line 82: the sidebar error is shown, nothing is raised. *)
Definition sidebar_error (i : Inputs) : bool := to_date i <? from_date i.

(** [df] after line 89: the working set. *)
Definition df_final (df_original : DataFrame) (i : Inputs) : DataFrame :=
  date_stage (from_date i) (to_date i) (df_subcat df_original i).

(** ** Column sums *)

(** An [int64] result wraps around. *)
Definition wrap64 (z : Z) : Z := (z + 2 ^ 63) mod 2 ^ 64 - 2 ^ 63.

Fixpoint sum_int64 (col : list Z) : Z :=
  match col with
  | [] => 0
  | x :: rest => wrap64 (x + sum_int64 rest)
  end.

(** A float sum, as the exact sum of its terms: the value the routine
    approximates, whichever order it adds in. *)
Fixpoint sum_float (col : list Q) : Q :=
  match col with
  | [] => 0%Q
  | x :: rest => (x + sum_float rest)%Q
  end.

(** Float division: no value when the divisor is zero. *)
Definition truediv (x y : Q) : option Q :=
  if Qeq_bool y 0 then None else Some (x / y)%Q.

(** [series.replace(0, 1)], on one cell. *)
Definition replace_0_1 (x : Q) : Q := if Qeq_bool x 0 then 1%Q else x.

(** ** KPI tiles (lines 158-177) *)

(** A tile's text, kept as the number handed to the format string. *)
Inductive Display :=
| Dollars (num : Q)              (* format_number(num) *)
| Thousands (num : option Q)     (* f"{num:.1f}K"      *)
| Percent (num : option Q)       (* f"{num:.2f}%"      *)
| Text (s : string).

Definition total_sales (df : DataFrame) : Display :=
  if empty df then Dollars 0 else Dollars (sum_float (map Sales df)).

Definition total_quantity (df : DataFrame) : Display :=
  if empty df then Text "0"
  else Thousands (truediv (inject_Z (sum_int64 (map Quantity df))) 1000).

Definition total_profit (df : DataFrame) : Display :=
  if empty df then Dollars 0 else Dollars (sum_float (map Profit df)).

(** The number inside the margin tile of a non-empty frame:
    [(profit / sales * 100) if sales != 0 else 0]. *)
Definition margin_pct (df : DataFrame) : option Q :=
  if negb (Qeq_bool (sum_float (map Sales df)) 0)
  then option_map (fun q => (q * 100)%Q)
         (truediv (sum_float (map Profit df)) (sum_float (map Sales df)))
  else Some 0%Q.

Definition margin_rate (df : DataFrame) : Display :=
  if empty df then Text "0.00%" else Percent (margin_pct df).

(** ** Grouped aggregates (lines 234-248) *)

Record Sums (K : Type) := mkSums {
  skey : K;
  sSales : Q;
  sQuantity : Z;
  sProfit : Q
}.
Arguments mkSums {K}.
Arguments skey {K}.
Arguments sSales {K}.
Arguments sQuantity {K}.
Arguments sProfit {K}.

(** A grouped frame's row once the ["Margin Rate"] column is added. *)
Record Group (K : Type) := mkGroup {
  gkey : K;
  gSales : Q;
  gQuantity : Z;
  gProfit : Q;
  gMargin_Rate : option Q
}.
Arguments mkGroup {K}.
Arguments gkey {K}.
Arguments gSales {K}.
Arguments gQuantity {K}.
Arguments gProfit {K}.
Arguments gMargin_Rate {K}.

Section GroupBy.
Context {K : Type}.
Variable eqb : K -> K -> bool.
Variable leb : K -> K -> bool.
Variable key : Row -> option K.

Definition has_key (k : K) (r : Row) : bool :=
  match key r with
  | Some k' => eqb k' k
  | None => false
  end.

(** [groupby] sorts the group keys and leaves blank keys out. *)
Definition group_keys (df : DataFrame) : list K :=
  options eqb leb (map key df).

Definition members (df : DataFrame) (k : K) : DataFrame :=
  filter (has_key k) df.

Definition agg_sum (df : DataFrame) (k : K) : Sums K :=
  mkSums k
    (sum_float (map Sales (members df k)))
    (sum_int64 (map Quantity (members df k)))
    (sum_float (map Profit (members df k))).

(** [df.groupby(key).agg({...: "sum"}).reset_index()] *)
Definition groupby_sum (df : DataFrame) : list (Sums K) :=
  map (agg_sum df) (group_keys df).

(** The row's key is one of [ks]. *)
Definition keyed_in (ks : list K) (r : Row) : bool :=
  match key r with
  | Some k => seen_in eqb k ks
  | None => false
  end.

(** The row has a key. *)
Definition keyed (r : Row) : bool :=
  match key r with Some _ => true | None => false end.
End GroupBy.

(** [g["Margin Rate"] = g["Profit"] / g["Sales"].replace(0, 1)], row by row. *)
Definition add_margin_rate {K : Type} (s : Sums K) : Group K :=
  mkGroup (skey s) (sSales s) (sQuantity s) (sProfit s)
    (truediv (sProfit s) (replace_0_1 (sSales s))).

Definition daily_grouped (df : DataFrame) : list (Group Z) :=
  map add_margin_rate
    (groupby_sum Z.eqb Z.leb (fun r => Some (Order_Date r)) df).

Definition product_grouped (df : DataFrame) : list (Group string) :=
  map add_margin_rate (groupby_sum String.eqb String.leb Product_Name df).

(** ** Ranking (lines 250-252) *)

(** The value of a grouped row in the column named by the radio button;
    [None] stands for NaN. *)
Definition metric {K : Type} (kpi : MetricKind) (g : Group K) : option Q :=
  match kpi with
  | KSales => Some (gSales g)
  | KQuantity => Some (inject_Z (gQuantity g))
  | KProfit => Some (gProfit g)
  | KMargin_Rate => gMargin_Rate g
  end.

Fixpoint enumerate_from {A : Type} (n : nat) (l : list A) : list (nat * A) :=
  match l with
  | [] => []
  | x :: rest => (n, x) :: enumerate_from (S n) rest
  end.

(** Positions and values of the cells that are not NaN, and the positions
    of those that are. *)
Fixpoint non_nans (items : list (nat * option Q)) : list (nat * Q) :=
  match items with
  | [] => []
  | (i, Some q) :: rest => (i, q) :: non_nans rest
  | (_, None) :: rest => non_nans rest
  end.

Fixpoint nan_idx (items : list (nat * option Q)) : list nat :=
  match items with
  | [] => []
  | (_, Some _) :: rest => nan_idx rest
  | (i, None) :: rest => i :: nan_idx rest
  end.

(** [frame.take(indexer)] *)
Definition take {A : Type} (frame : list A) (indexer : list nat) : list A :=
  dropna (map (nth_error frame) indexer).

(** [frame.head(n)] *)
Definition head {A : Type} (n : nat) (frame : list A) : list A := firstn n frame.

(** ** The page, top to bottom *)

Inductive exn :=
| NameError (name : string)      (* a name no executed statement has bound *)
| Rejected (call : string).      (* the named library call raised on what
                                    it was handed *)

Inductive result (A : Type) :=
| Ok (a : A)
| Raise (e : exn).
Arguments Ok {A}.
Arguments Raise {A}.

Definition bind {A B : Type} (m : result A) (k : A -> result B) : result B :=
  match m with
  | Ok a => k a
  | Raise e => Raise e
  end.

(** Reading a variable that no executed statement has bound. *)
Definition load {A : Type} (name : string) (binding : option A) : result A :=
  match binding with
  | Some v => Ok v
  | None => Raise (NameError name)
  end.

(** [st.date_input] raises when the date it is handed is NaT. *)
Definition known_date {A : Type} (call : string) (bound : option A) : result A :=
  match bound with
  | Some d => Ok d
  | None => Raise (Rejected call)
  end.

(** The numeric columns of [df] that a KPI can name: ["Margin Rate"] is
    added to the two grouped frames (lines 240 and 248) and never to [df]. *)
Definition df_has_column (kpi : MetricKind) : bool :=
  match kpi with
  | KMargin_Rate => false
  | _ => true
  end.

(** [px.pie(df, values=kpi)] raises (a ValueError) when [kpi] names no
    column of [df]. *)
Definition named_column (call : string) (kpi : MetricKind) : result MetricKind :=
  if df_has_column kpi then Ok kpi else Raise (Rejected call).

Record Charts := mkCharts {
  line_chart : list (Group Z);          (* daily_grouped *)
  bar_chart  : list (Group string)      (* top_10        *)
}.

Record Page := mkPage {
  date_error    : bool;                 (* st.sidebar.error             *)
  working_set   : DataFrame;            (* df, offered for download     *)
  tile_sales    : Display;
  tile_quantity : Display;
  tile_profit   : Display;
  tile_margin   : Display;
  no_data       : bool;                 (* st.warning                   *)
  charts        : option Charts;
  pie_values    : MetricKind            (* values= of the pies, treemap *)
}.

Section Ranking.
(** [sort_values] is called with its default [kind="quicksort"]: the row
    order comes from numpy's [argsort], which pandas documents as not
    stable.  The routine is a parameter; what is known of it is that it
    returns the positions [0 .. n-1] in an order that makes the values
    ascending. *)
Variable argsort : list Q -> list nat.

(** pandas' [nargsort] with [ascending=False, na_position="last"]:
    reverse the cells that are not NaN, sort them ascending, reverse the
    outcome, and put the NaN positions at the end. *)
Definition nargsort_desc (items : list (option Q)) : list nat :=
  let cells := rev (non_nans (enumerate_from 0 items)) in
  rev (take (map fst cells) (argsort (map snd cells)))
    ++ nan_idx (enumerate_from 0 items).

Definition sort_values {K : Type} (kpi : MetricKind) (frame : list (Group K))
    : list (Group K) :=
  take frame (nargsort_desc (map (metric kpi) frame)).

Definition top_10 (kpi : MetricKind) (df : DataFrame) : list (Group string) :=
  head 10 (sort_values kpi (product_grouped df)).

(** [selected_kpi] is assigned in the [else] branch of line 225 only. *)
Definition selected_kpi (df : DataFrame) (i : Inputs) : option MetricKind :=
  if empty df then None else Some (radio_kpi i).

Definition charts_of (df : DataFrame) (i : Inputs) : option Charts :=
  if empty df then None
  else Some (mkCharts (daily_grouped df) (top_10 (radio_kpi i) df)).

(** The page follows the script as far as its own statements decide the
    outcome.  [Raise] is a failure the script runs into: an unbound name,
    or one of the two library rejections named above.  [Ok] says that the
    script's statements ran and which values they handed to the tiles and
    to the charting calls, not that every chart was drawn: what else the
    charting library may refuse is not followed. *)
Definition script (df_original : DataFrame) (i : Inputs) : result Page :=
  bind (known_date "st.sidebar.date_input"
          (min_date df_original i)) (fun _ =>            (* line 74       *)
  let shown := sidebar_error i in                        (* lines 82-83   *)
  let df := df_final df_original i in                    (* lines 86-89   *)
  let sales := total_sales df in                         (* lines 168-177 *)
  let quantity := total_quantity df in
  let profit := total_profit df in
  let margin := margin_rate df in
  let warned := empty df in                              (* lines 225-226 *)
  let kpi := selected_kpi df i in                        (* line 230      *)
  let drawn := charts_of df i in                         (* lines 234-287 *)
  bind (load "selected_kpi" kpi) (fun chosen =>          (* line 294      *)
  bind (named_column "px.pie" chosen) (fun values =>     (* line 294      *)
  Ok (mkPage shown df sales quantity profit margin warned drawn values)))).
End Ranking.

(** ** Vocabulary of the properties *)

Definition str_ascending : list string -> Prop := ascending String.leb.

(** A row passes a stage when the stage is unconstrained or its cell holds
    the selected value. *)
Definition passes (col : Row -> option string) (selected : string) (r : Row) : Prop :=
  selected = All \/ col r = Some selected.

(** [Retains P df out]: [out] is [df] with the rows that fail [P] struck
    out and nothing else changed: the rows that satisfy [P] stay, once
    each, in their order. *)
Inductive Retains (P : Row -> Prop) : DataFrame -> DataFrame -> Prop :=
| Retains_nil : Retains P [] []
| Retains_keep r df out : P r -> Retains P df out -> Retains P (r :: df) (r :: out)
| Retains_drop r df out : ~ P r -> Retains P df out -> Retains P (r :: df) out.

(** [Subframe sub df]: [sub] is [df] with some rows struck out. *)
Inductive Subframe : DataFrame -> DataFrame -> Prop :=
| Subframe_nil : Subframe [] []
| Subframe_keep r sub df : Subframe sub df -> Subframe (r :: sub) (r :: df)
| Subframe_drop r sub df : Subframe sub df -> Subframe sub (r :: df).

Create HintDb frames.
#[local] Hint Constructors Retains Subframe : frames.

Definition Q_eq_dec (x y : Q) : {x = y} + {x <> y}.
Proof. decide equality; [apply Pos.eq_dec | apply Z.eq_dec]. Defined.

Definition Row_eq_dec (x y : Row) : {x = y} + {x <> y}.
Proof.
  decide equality;
    try apply Q_eq_dec; try apply Z.eq_dec;
    decide equality; apply string_dec.
Defined.

(** How many times a row occurs in a frame. *)
Definition occurrences (r : Row) (df : DataFrame) : nat := count_occ Row_eq_dec df r.

(** The closed interval of instants between two calendar days' midnights. *)
Definition within (lo hi : Z) (r : Row) : Prop :=
  to_datetime lo <= Order_Date r <= to_datetime hi.



(** What numpy promises of [argsort]: the positions [0 .. n-1], each once,
    in an order that makes the values ascending. *)
Definition argsort_contract (argsort : list Q -> list nat) : Prop :=
  forall v, Permutation (argsort v) (seq 0 (List.length v))
            /\ StronglySorted (fun i j => (nth i v 0 <= nth j v 0)%Q) (argsort v).

(** [g] may stand before [h] in a descending ranking. *)
Definition metric_ge {K : Type} (kpi : MetricKind) (g h : Group K) : Prop :=
  forall a b, metric kpi g = Some a -> metric kpi h = Some b -> (b <= a)%Q.

Definition descending {K : Type} (kpi : MetricKind) (frame : list (Group K)) : Prop :=
  Forall (fun g => metric kpi g <> None) frame
  /\ StronglySorted (metric_ge kpi) frame.

(** The number of distinct product names of a frame. *)
Definition distinct_products (df : DataFrame) : nat :=
  List.length (unique String.eqb (dropna (map Product_Name df))).

(** A sorting routine that keeps numpy's promise: an insertion sort of
    the numbered cells. *)
Definition argsort_by (c : nat * Q -> nat * Q -> bool) (v : list Q) : list nat :=
  map fst (sorted c (enumerate_from 0 v)).

Definition argsort_stable (v : list Q) : list nat :=
  argsort_by (fun p q => Qle_bool (snd p) (snd q)) v.

(** ** Sample data *)

Definition row_west : Row :=
  mkRow (to_datetime 19358) (Some "West"%string) (Some "California"%string) (Some "Furniture"%string)
    (Some "Chairs"%string) (Some "Consumer"%string) (Some "A"%string) 100 2 20.

Definition row_east : Row :=
  mkRow (to_datetime 19359) (Some "East"%string) (Some "New York"%string) (Some "Technology"%string)
    (Some "Phones"%string) (Some "Corporate"%string) (Some "B"%string) 50 1 (-10).

(** A row whose state and product name cells are blank. *)
Definition row_unnamed : Row :=
  mkRow (to_datetime 19360) (Some "West"%string) None (Some "Furniture"%string)
    (Some "Tables"%string) (Some "Consumer"%string) None 10 1 4.

(** A free replacement: nothing charged, a cost booked. *)
Definition row_free : Row :=
  mkRow (to_datetime 19358) (Some "West"%string) (Some "Oregon"%string) (Some "Office Supplies"%string)
    (Some "Paper"%string) (Some "Consumer"%string) (Some "C"%string) 0 1 (-5).

Definition pick_all (lo hi : Z) : Inputs :=
  mkInputs "All" "All" "All" "All" lo hi KSales.

(** ** More of the page: widgets, formats, and what the properties below name *)

(** A select box shows ["All"] followed by the options of its stage; the
    user can only return one of the entries shown. *)
Definition offered (opts : list string) (selected : string) : Prop :=
  selected = All \/ In selected opts.

(** All four select boxes return an entry they showed. *)
Definition valid_selection (df_original : DataFrame) (i : Inputs) : Prop :=
  offered (all_regions df_original) (selected_region i)
  /\ offered (all_states df_original i) (selected_state i)
  /\ offered (all_categories df_original i) (selected_category i)
  /\ offered (all_subcats df_original i) (selected_subcat i).

(** [timestamp.date()]: the calendar day of an instant. *)
Definition date_of (instant : Z) : Z := instant / ns_per_day.

(** The dates the two widgets start with: [value=min_date] and
    [value=max_date], which [st.date_input] turns into calendar days. *)
Definition default_from (df_original : DataFrame) (i : Inputs) : option Z :=
  option_map date_of (min_date df_original i).

Definition default_to (df_original : DataFrame) (i : Inputs) : option Z :=
  option_map date_of (max_date df_original i).

(** Region "West", state "California", the rest on "All". *)
Definition pick_west_california (lo hi : Z) : Inputs :=
  mkInputs "West" "California" "All" "All" lo hi KProfit.

(** Eleven products, "A" to "K", selling 1 to 11. *)
Definition catalogue : DataFrame :=
  map (fun item : string * Z =>
         mkRow (to_datetime 19358) (Some "West"%string) (Some "Oregon"%string)
           (Some "Furniture"%string) (Some "Chairs"%string)
           (Some "Consumer"%string) (Some (fst item))
           (inject_Z (snd item)) 1 (inject_Z (snd item)))
    [("A"%string, 1); ("B"%string, 2); ("C"%string, 3); ("D"%string, 4);
     ("E"%string, 5); ("F"%string, 6); ("G"%string, 7); ("H"%string, 8);
     ("I"%string, 9); ("J"%string, 10); ("K"%string, 11)].

(** The exact sum of a column of integers. *)
Definition sum_exact (col : list Z) : Z := fold_right Z.add 0 col.

(** * Properties *)

(** ** Columns, [unique] and [sorted] *)

Lemma dropna_In {K : Type} (col : list (option K)) (v : K) :
  In v (dropna col) <-> In (Some v) col.
Proof.
  induction col as [|[w|] rest IH]; simpl.
  - tauto.
  - rewrite IH. split; intros [H|H]; auto; left; congruence.
  - rewrite IH. split; [auto | intros [H|H]; [discriminate | auto]].
Qed.

Section KeyFacts.
Context {K : Type}.
Variable eqb : K -> K -> bool.
Variable leb : K -> K -> bool.
Hypothesis eqb_eq : forall x y, eqb x y = true <-> x = y.
Hypothesis leb_total : forall x y, leb x y = true \/ leb y x = true.
Hypothesis leb_trans : forall x y z, leb x y = true -> leb y z = true -> leb x z = true.

Lemma seen_in_In (x : K) (seen : list K) : seen_in eqb x seen = true <-> In x seen.
Proof.
  unfold seen_in. rewrite existsb_exists. split.
  - intros [y [Hy He]]. apply eqb_eq in He. now subst.
  - intros H. exists x. split; [assumption | now apply eqb_eq].
Qed.

Lemma unique_from_In (col seen : list K) (x : K) :
  In x (unique_from eqb seen col) <-> In x col /\ ~ In x seen.
Proof.
  revert seen. induction col as [|y rest IH]; intros seen; simpl.
  - tauto.
  - destruct (seen_in eqb y seen) eqn:E.
    + apply seen_in_In in E. rewrite IH. split.
      * tauto.
      * intros [[->|H] Hn]; [contradiction | tauto].
    + assert (Hy : ~ In y seen) by (rewrite <- seen_in_In, E; discriminate).
      simpl. rewrite IH. simpl. split.
      * intros [->|[H Hn]]; [tauto|]. split; [tauto|]. intro; apply Hn; tauto.
      * intros [[->|H] Hn]; [tauto|].
        destruct (eqb y x) eqn:Eyx.
        -- apply eqb_eq in Eyx. tauto.
        -- right. split; [assumption|]. intros [->|H']; [|contradiction].
           assert (eqb x x = true) by now apply eqb_eq. congruence.
Qed.

Lemma unique_from_NoDup (col seen : list K) : NoDup (unique_from eqb seen col).
Proof.
  revert seen. induction col as [|y rest IH]; intros seen; simpl.
  - constructor.
  - destruct (seen_in eqb y seen); [apply IH|].
    constructor; [|apply IH].
    rewrite unique_from_In. simpl. tauto.
Qed.

Lemma unique_In (col : list K) (x : K) : In x (unique eqb col) <-> In x col.
Proof. unfold unique. rewrite unique_from_In. simpl. tauto. Qed.

Lemma unique_NoDup (col : list K) : NoDup (unique eqb col).
Proof. apply unique_from_NoDup. Qed.

Lemma insort_perm (x : K) (l : list K) : Permutation (insort leb x l) (x :: l).
Proof.
  induction l as [|y rest IH]; simpl.
  - apply Permutation_refl.
  - destruct (leb x y).
    + apply Permutation_refl.
    + rewrite IH. apply perm_swap.
Qed.

Lemma sorted_perm (l : list K) : Permutation (sorted leb l) l.
Proof.
  induction l as [|x rest IH]; simpl.
  - constructor.
  - rewrite insort_perm. now constructor.
Qed.

Lemma insort_ascending (x : K) (l : list K) :
  ascending leb l -> ascending leb (insort leb x l).
Proof.
  unfold ascending. induction 1 as [|y rest Hs IH Hall]; simpl.
  - repeat constructor.
  - destruct (leb x y) eqn:E.
    + constructor; [now constructor|].
      constructor; [assumption|].
      eapply Forall_impl; [|exact Hall]. intros z Hz. now apply leb_trans with y.
    + constructor; [assumption|].
      apply (Permutation_Forall (Permutation_sym (insort_perm x rest))).
      constructor; [|assumption].
      destruct (leb_total x y); congruence.
Qed.

Lemma sorted_ascending (l : list K) : ascending leb (sorted leb l).
Proof.
  induction l as [|x rest IH]; simpl.
  - constructor.
  - now apply insort_ascending.
Qed.

Lemma options_In (col : list (option K)) (v : K) :
  In v (options eqb leb col) <-> In (Some v) col.
Proof.
  unfold options. rewrite <- dropna_In, <- (unique_In (dropna col)).
  split; apply Permutation_in; [|symmetry]; apply sorted_perm.
Qed.

Lemma options_NoDup (col : list (option K)) : NoDup (options eqb leb col).
Proof.
  unfold options.
  apply (Permutation_NoDup (Permutation_sym (sorted_perm _))), unique_NoDup.
Qed.

Lemma options_ascending (col : list (option K)) :
  ascending leb (options eqb leb col).
Proof. apply sorted_ascending. Qed.
End KeyFacts.

(** ** The order of strings, by character code *)

Lemma compare_as_OT (a b : string) : String.compare a b = String_as_OT.compare a b.
Proof.
  reflexivity.
Qed.

Lemma str_leb_spec (a b : string) :
  String.leb a b = true <-> a = b \/ String_as_OT.lt a b.
Proof.
  unfold String.leb. rewrite compare_as_OT.
  destruct (String_as_OT.compare_spec a b) as [H|H|H]; split; auto; try discriminate.
  intros [->|H']; exfalso.
  - now apply (StrictOrder_Irreflexive b).
  - apply (StrictOrder_Irreflexive a). now transitivity b.
Qed.

Lemma str_leb_trans (a b c : string) :
  String.leb a b = true -> String.leb b c = true -> String.leb a c = true.
Proof.
  rewrite !str_leb_spec. intros [->|H1] [->|H2]; auto.
  right. now transitivity b.
Qed.

Lemma str_options_In (col : Row -> option string) (df : DataFrame) (v : string) :
  In v (str_options (map col df)) <-> exists r, In r df /\ col r = Some v.
Proof.
  unfold str_options.
  rewrite (options_In _ _ String.eqb_eq), in_map_iff.
  split; intros [r [H1 H2]]; exists r; tauto.
Qed.

Lemma str_options_NoDup (col : list (option string)) : NoDup (str_options col).
Proof. apply options_NoDup, String.eqb_eq. Qed.

Lemma str_options_ascending (col : list (option string)) :
  str_ascending (str_options col).
Proof. apply options_ascending; [apply String.leb_total | apply str_leb_trans]. Qed.

(** ** The categorical stages *)

Lemma col_eq_true (cell : option string) (v : string) :
  col_eq cell v = true <-> cell = Some v.
Proof.
  destruct cell as [s|]; simpl.
  - rewrite String.eqb_eq. split; congruence.
  - split; discriminate.
Qed.

Lemma narrow_All (col : Row -> option string) (df : DataFrame) :
  narrow col All df = df.
Proof. reflexivity. Qed.

Lemma narrow_other (col : Row -> option string) (selected : string) (df : DataFrame) :
  selected <> All ->
  narrow col selected df = filter (fun r => col_eq (col r) selected) df.
Proof.
  intros H. unfold narrow.
  destruct (String.eqb selected All) eqn:E; [|reflexivity].
  apply String.eqb_eq in E. contradiction.
Qed.

Lemma narrow_In (col : Row -> option string) (selected : string) (df : DataFrame) (r : Row) :
  In r (narrow col selected df) <-> In r df /\ passes col selected r.
Proof.
  unfold narrow, passes.
  destruct (String.eqb selected All) eqn:E; simpl.
  - apply String.eqb_eq in E. tauto.
  - apply String.eqb_neq in E. rewrite filter_In, col_eq_true. tauto.
Qed.

(** ** Retaining exactly the rows that satisfy a condition *)

Lemma Retains_filter (P : Row -> Prop) (f : Row -> bool) (df : DataFrame) :
  (forall r, f r = true <-> P r) -> Retains P df (filter f df).
Proof.
  intros Hf. induction df as [|r df IH]; simpl; auto with frames.
  destruct (f r) eqn:E.
  - apply Retains_keep; [now apply Hf | assumption].
  - apply Retains_drop; [rewrite <- Hf; congruence | assumption].
Qed.

Lemma Retains_all (P : Row -> Prop) (df : DataFrame) :
  (forall r, P r) -> Retains P df df.
Proof. intros H. induction df; auto with frames. Qed.

Lemma Retains_unique (P : Row -> Prop) (df out1 out2 : DataFrame) :
  Retains P df out1 -> Retains P df out2 -> out1 = out2.
Proof.
  intros H1. revert out2.
  induction H1; intros out2 H2; inversion H2; subst;
    try reflexivity; try contradiction; auto.
  f_equal. auto.
Qed.

Lemma Retains_In (P : Row -> Prop) (df out : DataFrame) (r : Row) :
  Retains P df out -> (In r out <-> In r df /\ P r).
Proof.
  induction 1 as [|x df out Hx _ IH|x df out Hx _ IH]; simpl.
  - tauto.
  - rewrite IH. split; [intros [->|H]; tauto | tauto].
  - rewrite IH. split; [tauto | intros [[->|H] HP]; tauto].
Qed.

Lemma Retains_Subframe (P : Row -> Prop) (df out : DataFrame) :
  Retains P df out -> Subframe out df.
Proof. induction 1; auto with frames. Qed.

Lemma Subframe_refl (df : DataFrame) : Subframe df df.
Proof. induction df; auto with frames. Qed.

Lemma Subframe_trans (a b c : DataFrame) :
  Subframe a b -> Subframe b c -> Subframe a c.
Proof.
  intros Hab Hbc. revert a Hab.
  induction Hbc as [|r b c Hbc IH|r b c Hbc IH]; intros a Hab.
  - assumption.
  - inversion Hab; subst; auto with frames.
  - auto with frames.
Qed.

Lemma Subframe_In (sub df : DataFrame) (r : Row) :
  Subframe sub df -> In r sub -> In r df.
Proof. induction 1; simpl; tauto. Qed.

Lemma Subframe_occurrences (sub df : DataFrame) (r : Row) :
  Subframe sub df -> (occurrences r sub <= occurrences r df)%nat.
Proof.
  unfold occurrences. induction 1 as [|x sub df _ IH|x sub df _ IH]; simpl.
  - lia.
  - destruct (Row_eq_dec x r); lia.
  - destruct (Row_eq_dec x r); lia.
Qed.

Lemma narrow_Retains (col : Row -> option string) (selected : string) (df : DataFrame) :
  Retains (passes col selected) df (narrow col selected df).
Proof.
  unfold narrow, passes. destruct (String.eqb selected All) eqn:E; simpl.
  - apply String.eqb_eq in E. apply Retains_all. auto.
  - apply String.eqb_neq in E. apply Retains_filter.
    intros r. rewrite col_eq_true. tauto.
Qed.

Lemma narrow_Subframe (col : Row -> option string) (selected : string) (df : DataFrame) :
  Subframe (narrow col selected df) df.
Proof. eapply Retains_Subframe, narrow_Retains. Qed.

Lemma in_range_within (lo hi : Z) (r : Row) :
  in_range lo hi r = true <-> within lo hi r.
Proof.
  unfold in_range, within. rewrite andb_true_iff, !Z.leb_le. tauto.
Qed.

Lemma date_stage_Retains (lo hi : Z) (df : DataFrame) :
  Retains (within lo hi) df (date_stage lo hi df).
Proof. apply Retains_filter, in_range_within. Qed.

Lemma to_datetime_lt (a b : Z) : a < b -> to_datetime a < to_datetime b.
Proof. unfold to_datetime, ns_per_day. lia. Qed.

Lemma date_stage_inverted (lo hi : Z) (df : DataFrame) :
  hi < lo -> date_stage lo hi df = [].
Proof.
  intros H. unfold date_stage. induction df as [|r df IH]; simpl; [reflexivity|].
  destruct (in_range lo hi r) eqn:E; [|assumption].
  apply in_range_within in E. unfold within in E.
  apply to_datetime_lt in H. lia.
Qed.

(** ** The filter engine *)

(** C7: the working set is the data set passed through the region, state,
    category and sub-category stages and then the date range, in that
    order, each stage reading the previous one's output: the region stage
    retains exactly the rows of the data set that pass the region
    selection, the state stage exactly those of the region stage's output
    that pass the state selection, and so on, and the date range retains
    exactly the rows of the sub-category stage's output whose order
    instant lies between the two midnights.  A stage whose selection is
    "All" hands its input on unchanged, and a stage with any other
    selection retains exactly the rows whose cell equals it. *)
Theorem filter_cascade_order (df_original : DataFrame) (i : Inputs) :
  df_final df_original i =
    date_stage (from_date i) (to_date i)
      (narrow Sub_Category (selected_subcat i)
        (narrow Category (selected_category i)
          (narrow State (selected_state i)
            (narrow Region (selected_region i) df_original))))
  /\ (forall col df, narrow col All df = df)
  /\ (forall col selected df,
        selected = All \/
        Retains (fun r => col r = Some selected) df (narrow col selected df))
  /\ Retains (fun r => selected_region i = All \/ Region r = Some (selected_region i))
       df_original (df_filtered_region df_original i)
  /\ Retains (fun r => selected_state i = All \/ State r = Some (selected_state i))
       (df_filtered_region df_original i) (df_filtered_state df_original i)
  /\ Retains (fun r => selected_category i = All
                       \/ Category r = Some (selected_category i))
       (df_filtered_state df_original i) (df_filtered_category df_original i)
  /\ Retains (fun r => selected_subcat i = All
                       \/ Sub_Category r = Some (selected_subcat i))
       (df_filtered_category df_original i) (df_subcat df_original i)
  /\ Retains (fun r => to_datetime (from_date i) <= Order_Date r
                       /\ Order_Date r <= to_datetime (to_date i))
       (df_subcat df_original i) (df_final df_original i).
Proof.
  split; [reflexivity|]. split; [intros; apply narrow_All|].
  split.
  { intros col selected df.
    destruct (string_dec selected All) as [E|E]; [now left | right].
    rewrite narrow_other by assumption.
    apply Retains_filter. intros r. apply col_eq_true. }
  repeat split; try apply narrow_Retains.
  apply date_stage_Retains.
Qed.

(** C8: the working set is the data set with some rows struck out: each of
    its rows is a row of the data set, and no row occurs in it more often
    than in the data set. *)
Theorem working_set_subset (df_original : DataFrame) (i : Inputs) :
  Subframe (df_final df_original i) df_original
  /\ incl (df_final df_original i) df_original
  /\ forall r, (occurrences r (df_final df_original i) <= occurrences r df_original)%nat.
Proof.
  assert (H : Subframe (df_final df_original i) df_original).
  { unfold df_final, df_subcat, df_filtered_category, df_filtered_state,
      df_filtered_region.
    eapply Subframe_trans; [eapply Retains_Subframe, date_stage_Retains|].
    repeat (eapply Subframe_trans; [apply narrow_Subframe|]).
    apply Subframe_refl. }
  split; [assumption|]. split.
  - intros r. now apply Subframe_In.
  - intros r. now apply Subframe_occurrences.
Qed.

(** C4: the date stage retains exactly the rows whose order instant lies
    between midnight of the first day and midnight of the last day, both
    ends included, compared at the instants' own precision; with both
    bounds on one day it retains exactly the rows stamped with that day's
    midnight, which are the rows of that calendar day that carry no time
    of day. *)
Theorem date_stage_inclusive (lo hi d : Z) (df : DataFrame) :
  Retains (fun r => to_datetime lo <= Order_Date r <= to_datetime hi) df
    (date_stage lo hi df)
  /\ Retains (fun r => Order_Date r = to_datetime d) df (date_stage d d df)
  /\ Retains (fun r => Order_Date r / ns_per_day = d /\ Order_Date r mod ns_per_day = 0)
       df (date_stage d d df).
Proof.
  split; [apply date_stage_Retains|]. split.
  - apply Retains_filter. intros r. rewrite in_range_within. unfold within. lia.
  - apply Retains_filter. intros r. rewrite in_range_within.
    unfold within, to_datetime, ns_per_day. split.
    + intros H. assert (E : Order_Date r = d * 86400000000000) by lia.
      rewrite E. split; [apply Z.div_mul; lia | apply Z.mod_mul; lia].
    + intros [H1 H2].
      pose proof (Z.div_mod (Order_Date r) 86400000000000 ltac:(lia)). lia.
Qed.

(** C5: with the first day after the last day the sidebar error is shown,
    the date stage still runs on the inverted bounds and leaves an empty
    working set, and the KPI tiles are computed from it. *)
Theorem inverted_range_flagged_and_empty (df_original : DataFrame) (i : Inputs) :
  from_date i > to_date i ->
  sidebar_error i = true
  /\ df_final df_original i =
       date_stage (from_date i) (to_date i) (df_subcat df_original i)
  /\ df_final df_original i = []
  /\ total_sales (df_final df_original i) = Dollars 0
  /\ total_quantity (df_final df_original i) = Text "0"
  /\ total_profit (df_final df_original i) = Dollars 0
  /\ margin_rate (df_final df_original i) = Text "0.00%".
Proof.
  intros H.
  assert (E : df_final df_original i = []).
  { unfold df_final. apply date_stage_inverted. lia. }
  split; [unfold sidebar_error; apply Z.ltb_lt; lia|].
  split; [reflexivity|]. split; [assumption|].
  rewrite E. repeat split.
Qed.

(** C6: the state options are the distinct states, in ascending order, of
    the rows that match the region selection (every row when it is
    "All"); the category options come from the rows that also match the
    state selection, and the sub-category options from those that also
    match the category selection. *)
Theorem options_follow_cascade (df_original : DataFrame) (i : Inputs) :
  (str_ascending (all_states df_original i) /\ NoDup (all_states df_original i)
   /\ forall s, In s (all_states df_original i) <->
        exists r, In r df_original
                  /\ passes Region (selected_region i) r
                  /\ State r = Some s)
  /\ (str_ascending (all_categories df_original i) /\ NoDup (all_categories df_original i)
   /\ forall c, In c (all_categories df_original i) <->
        exists r, In r df_original
                  /\ passes Region (selected_region i) r
                  /\ passes State (selected_state i) r
                  /\ Category r = Some c)
  /\ (str_ascending (all_subcats df_original i) /\ NoDup (all_subcats df_original i)
   /\ forall c, In c (all_subcats df_original i) <->
        exists r, In r df_original
                  /\ passes Region (selected_region i) r
                  /\ passes State (selected_state i) r
                  /\ passes Category (selected_category i) r
                  /\ Sub_Category r = Some c).
Proof.
  unfold all_states, all_categories, all_subcats, df_filtered_category,
    df_filtered_state, df_filtered_region.
  repeat split; try apply str_options_ascending; try apply str_options_NoDup.
  all: rewrite str_options_In; intros [r H]; exists r;
    rewrite ?narrow_In in *; tauto.
Qed.

(** C10: at every stage of the cascade the options offered are exactly the
    values of the non-blank cells of that stage's input, so a blank cell
    is never an option; and a row of the working set that has a blank cell
    in one of the four dimensions is there only because that dimension's
    selection is "All". *)
Theorem blank_cells_never_offered (df_original : DataFrame) (i : Inputs) :
  (forall v, In v (all_regions df_original) <->
     exists r, In r df_original /\ Region r = Some v)
  /\ (forall v, In v (all_states df_original i) <->
     exists r, In r (df_filtered_region df_original i) /\ State r = Some v)
  /\ (forall v, In v (all_categories df_original i) <->
     exists r, In r (df_filtered_state df_original i) /\ Category r = Some v)
  /\ (forall v, In v (all_subcats df_original i) <->
     exists r, In r (df_filtered_category df_original i) /\ Sub_Category r = Some v)
  /\ Forall (fun r =>
       (Region r = None -> selected_region i = All)
       /\ (State r = None -> selected_state i = All)
       /\ (Category r = None -> selected_category i = All)
       /\ (Sub_Category r = None -> selected_subcat i = All))
     (df_final df_original i).
Proof.
  repeat (split; [intros v; apply str_options_In|]).
  apply Forall_forall. intros r Hr.
  unfold df_final, df_subcat, df_filtered_category, df_filtered_state,
    df_filtered_region in Hr.
  apply (Retains_In _ _ _ r (date_stage_Retains _ _ _)) in Hr.
  rewrite !narrow_In in Hr. unfold passes in Hr.
  destruct Hr as [[[[[_ H1] H2] H3] H4] _].
  repeat split; intros E; rewrite E in *;
    match goal with
    | H : ?s = All \/ None = Some _ |- ?s = All => destruct H; [assumption | discriminate]
    end.
Qed.

(** ** Sums *)

Lemma wrap64_mod (z : Z) : wrap64 z mod 2 ^ 64 = z mod 2 ^ 64.
Proof.
  unfold wrap64.
  rewrite Zminus_mod, Z.mod_mod by lia.
  rewrite <- Zminus_mod. f_equal. lia.
Qed.

Lemma wrap64_eq (a b : Z) : a mod 2 ^ 64 = b mod 2 ^ 64 -> wrap64 a = wrap64 b.
Proof.
  intros H. unfold wrap64. f_equal.
  rewrite (Zplus_mod a), (Zplus_mod b), H. reflexivity.
Qed.

Lemma wrap64_add_r (a b : Z) : wrap64 (a + wrap64 b) = wrap64 (a + b).
Proof.
  apply wrap64_eq. rewrite (Zplus_mod a), wrap64_mod, <- Zplus_mod. reflexivity.
Qed.

Lemma wrap64_add_l (a b : Z) : wrap64 (wrap64 a + b) = wrap64 (a + b).
Proof. rewrite (Z.add_comm (wrap64 a)), wrap64_add_r. f_equal. lia. Qed.

Lemma wrap64_idem (z : Z) : wrap64 (wrap64 z) = wrap64 z.
Proof. apply wrap64_eq, wrap64_mod. Qed.

Lemma sum_int64_wrapped (l : list Z) : wrap64 (sum_int64 l) = sum_int64 l.
Proof. destruct l; simpl; [reflexivity | apply wrap64_idem]. Qed.

Lemma sum_int64_app (l l' : list Z) :
  sum_int64 (l ++ l') = wrap64 (sum_int64 l + sum_int64 l').
Proof.
  induction l as [|x l IH]; simpl.
  - symmetry. apply sum_int64_wrapped.
  - rewrite IH, wrap64_add_r, wrap64_add_l. f_equal. lia.
Qed.

Lemma sum_int64_perm (l l' : list Z) :
  Permutation l l' -> sum_int64 l = sum_int64 l'.
Proof.
  induction 1 as [|x l l' _ IH|x y l|l l' l'' _ IH1 _ IH2]; simpl.
  - reflexivity.
  - now rewrite IH.
  - rewrite !wrap64_add_r. f_equal. lia.
  - now rewrite IH1.
Qed.

(** ** Groups partition the rows that carry a key *)

Lemma filter_true {A : Type} (f : A -> bool) (l : list A) :
  Forall (fun x => f x = true) l -> filter f l = l.
Proof.
  induction 1 as [|x l Hx _ IH]; simpl; [reflexivity|].
  now rewrite Hx, IH.
Qed.

Lemma filter_split {A : Type} (p q : A -> bool) (l : list A) :
  (forall x, p x = true -> q x = false) ->
  Permutation (filter p l ++ filter q l) (filter (fun x => p x || q x) l).
Proof.
  intros Hpq. induction l as [|x l IH]; simpl; [constructor|].
  destruct (p x) eqn:Ep; simpl.
  - rewrite (Hpq x Ep). now constructor.
  - destruct (q x); [|assumption].
    symmetry. apply Permutation_cons_app. now symmetry.
Qed.

Section Partition.
Context {K : Type}.
Variable eqb : K -> K -> bool.
Variable leb : K -> K -> bool.
Variable key : Row -> option K.
Hypothesis eqb_eq : forall x y, eqb x y = true <-> x = y.

Lemma members_partition (df : DataFrame) (ks : list K) :
  NoDup ks ->
  Permutation (List.concat (map (members eqb key df) ks)) (filter (keyed_in eqb key ks) df).
Proof.
  induction 1 as [|k ks Hk _ IH]; simpl.
  - unfold keyed_in. simpl.
    replace (filter _ df) with (@nil Row); [constructor|].
    induction df as [|r df IHdf]; simpl; [reflexivity|].
    now destruct (key r).
  - rewrite IH. unfold members.
    rewrite filter_split.
    + rewrite (filter_ext _ (keyed_in eqb key (k :: ks))); [reflexivity|].
      intros r. unfold has_key, keyed_in, seen_in.
      now destruct (key r).
    + intros r. unfold has_key, keyed_in. destruct (key r) as [k'|]; [|discriminate].
      intros E. apply eqb_eq in E. subst k'.
      destruct (seen_in eqb k ks) eqn:S; [|reflexivity].
      apply (seen_in_In eqb eqb_eq) in S. contradiction.
Qed.

Lemma keyed_in_group_keys (df : DataFrame) :
  filter (keyed_in eqb key (group_keys eqb leb key df)) df = filter (keyed key) df.
Proof.
  apply filter_ext_in. intros r Hr. unfold keyed_in, keyed.
  destruct (key r) as [k|] eqn:E; [|reflexivity].
  apply (seen_in_In eqb eqb_eq). unfold group_keys.
  apply (options_In eqb leb eqb_eq). apply in_map_iff. now exists r.
Qed.
End Partition.

Lemma sum_int64_concat (ls : list (list Z)) :
  sum_int64 (List.concat ls) = sum_int64 (map sum_int64 ls).
Proof.
  induction ls as [|l ls IH]; simpl.
  - reflexivity.
  - rewrite sum_int64_app, IH. reflexivity.
Qed.

Lemma grouped_keys {K : Type} (eqb leb : K -> K -> bool) (key : Row -> option K)
    (df : DataFrame) :
  map gkey (map add_margin_rate (groupby_sum eqb leb key df))
  = group_keys eqb leb key df.
Proof.
  unfold groupby_sum. rewrite !map_map. simpl. apply map_id.
Qed.





(** ** Margin rate *)

Lemma replace_0_1_nonzero (x : Q) : Qeq_bool (replace_0_1 x) 0 = false.
Proof.
  unfold replace_0_1. destruct (Qeq_bool x 0) eqn:E; [reflexivity | exact E].
Qed.

(** The tile of a non-empty frame: the guard of line 177 keeps the
    division away from a zero divisor and answers 0 in its place. *)
Lemma margin_pct_guard (df : DataFrame) :
  margin_pct df =
    Some (if Qeq_bool (sum_float (map Sales df)) 0 then 0
          else sum_float (map Profit df) / sum_float (map Sales df) * 100)%Q.
Proof.
  unfold margin_pct, truediv.
  now destruct (Qeq_bool (sum_float (map Sales df)) 0).
Qed.

(** A grouped row: [replace(0, 1)] keeps the division defined, and a group
    without sales is divided by 1. *)
Lemma group_margin_guard {K : Type} (s : Sums K) :
  gMargin_Rate (add_margin_rate s) =
    Some (if Qeq_bool (sSales s) 0 then sProfit s / 1 else sProfit s / sSales s)%Q.
Proof.
  unfold add_margin_rate, truediv. simpl.
  rewrite replace_0_1_nonzero. unfold replace_0_1.
  now destruct (Qeq_bool (sSales s) 0).
Qed.

(** C1, at a data set of one row with no sales and a profit of -5: its
    day's group and its product's group have sales 0 and margin rate -5,
    the profit divided by 1, while the tile computed from the same row
    shows 0. *)
Theorem zero_sales_group_margin :
  map (fun g => (gSales g, gMargin_Rate g)) (daily_grouped [row_free])
    = [(0 # 1, Some (-5 # 1))]
  /\ map (fun g => (gSales g, gMargin_Rate g)) (product_grouped [row_free])
    = [(0 # 1, Some (-5 # 1))]
  /\ margin_rate [row_free] = Percent (Some (0 # 1)).
Proof. vm_compute. repeat split. Qed.

(** ** The page on an empty working set *)

Lemma empty_true (df : DataFrame) : empty df = true <-> df = [].
Proof. destruct df; simpl; split; congruence. Qed.

(** C2, at a two-row data set with the date range inverted: the working
    set is empty, and the page stops at line 294 on the unbound name
    [selected_kpi] whatever sorting routine is underneath. *)
Theorem empty_working_set_raises (argsort : list Q -> list nat) :
  df_final [row_west; row_east] (pick_all 19359 19358) = []
  /\ script argsort [row_west; row_east] (pick_all 19359 19358)
     = Raise (NameError "selected_kpi").
Proof. split; reflexivity. Qed.

(** ** The theorems at the sample rows *)

Lemma inverted_range_witness :
  sidebar_error (pick_all 19359 19358) = true
  /\ df_final [row_west; row_east] (pick_all 19359 19358) = [].
Proof.
  destruct (inverted_range_flagged_and_empty [row_west; row_east]
              (pick_all 19359 19358)) as [H1 [_ [H2 _]]].
  - reflexivity.
  - split; assumption.
Defined.



(** ** Sorted lists *)

Section SortedFacts.
Context {A : Type}.

Lemma StronglySorted_app (R : A -> A -> Prop) (l1 l2 : list A) :
  StronglySorted R l1 -> StronglySorted R l2 ->
  (forall x y, In x l1 -> In y l2 -> R x y) ->
  StronglySorted R (l1 ++ l2).
Proof.
  induction 1 as [|x l1 Hs IH Hall]; intros H2 Hx; simpl; [assumption|].
  constructor.
  - apply IH; [assumption|]. intros; apply Hx; simpl; auto.
  - apply Forall_app. split; [assumption|].
    apply Forall_forall. intros y Hy. apply Hx; simpl; auto.
Qed.

Lemma StronglySorted_rev (R : A -> A -> Prop) (l : list A) :
  StronglySorted R l -> StronglySorted (fun x y => R y x) (rev l).
Proof.
  induction 1 as [|x l Hs IH Hall]; simpl; [constructor|].
  apply StronglySorted_app; [assumption | repeat constructor |].
  intros y z Hy [<-|[]]. rewrite Forall_forall in Hall.
  apply Hall. now apply in_rev.
Qed.

Lemma StronglySorted_weaken (R R' : A -> A -> Prop) (l : list A) :
  (forall x y, In x l -> In y l -> R x y -> R' x y) ->
  StronglySorted R l -> StronglySorted R' l.
Proof.
  intros HR H. induction H as [|x l Hs IH Hall]; constructor.
  - apply IH. intros; apply HR; simpl; auto.
  - rewrite Forall_forall in *. intros y Hy. apply HR; simpl; auto.
Qed.

Lemma StronglySorted_map {B : Type} (f : A -> B) (R : B -> B -> Prop) (l : list A) :
  StronglySorted (fun x y => R (f x) (f y)) l -> StronglySorted R (map f l).
Proof.
  induction 1 as [|x l Hs IH Hall]; simpl; constructor; [assumption|].
  now apply Forall_map.
Qed.

Lemma StronglySorted_firstn (R : A -> A -> Prop) (n : nat) (l : list A) :
  StronglySorted R l -> StronglySorted R (firstn n l).
Proof.
  intros H. revert n. induction H as [|x l Hs IH Hall]; intros [|n]; simpl;
    try constructor.
  - apply IH.
  - rewrite Forall_forall in *. intros y Hy. apply Hall.
    rewrite <- (firstn_skipn n l). apply in_or_app. now left.
Qed.
End SortedFacts.

(** ** [take] *)

Lemma dropna_perm {K : Type} (l l' : list (option K)) :
  Permutation l l' -> Permutation (dropna l) (dropna l').
Proof.
  induction 1 as [|[x|] l l' _ IH|[x|] [y|] l|l l' l'' _ IH1 _ IH2]; simpl;
    try (constructor; assumption); try apply Permutation_refl.
  - assumption.
  - now transitivity (dropna l').
Qed.

Lemma take_seq_from {A : Type} (pre l : list A) :
  take (pre ++ l) (seq (List.length pre) (List.length l)) = l.
Proof.
  revert pre. induction l as [|x l IH]; intros pre; [reflexivity|].
  unfold take in *. simpl.
  rewrite nth_error_app2, Nat.sub_diag by lia. simpl. f_equal.
  specialize (IH (pre ++ [x])).
  rewrite <- app_assoc, length_app in IH. simpl in IH.
  now rewrite Nat.add_1_r in IH.
Qed.

Lemma take_all {A : Type} (l : list A) : take l (seq 0 (List.length l)) = l.
Proof. apply (take_seq_from [] l). Qed.

Lemma take_perm {A : Type} (l : list A) (idx : list nat) :
  Permutation idx (seq 0 (List.length l)) -> Permutation (take l idx) l.
Proof.
  intros H. rewrite <- (take_all l) at 2.
  unfold take. now apply dropna_perm, Permutation_map.
Qed.

Lemma take_In {A : Type} (l : list A) (idx : list nat) (y : A) :
  In y (take l idx) -> exists j, In j idx /\ nth_error l j = Some y.
Proof.
  unfold take. rewrite dropna_In, in_map_iff. intros [j [H1 H2]]. now exists j.
Qed.

Lemma take_sorted {A : Type} (R : A -> A -> Prop) (l : list A) (idx : list nat) :
  StronglySorted
    (fun i j => forall x y, nth_error l i = Some x -> nth_error l j = Some y -> R x y)
    idx ->
  StronglySorted R (take l idx).
Proof.
  induction 1 as [|i idx Hs IH Hall]; [constructor|].
  unfold take in *. simpl.
  destruct (nth_error l i) as [x|] eqn:E; [|assumption].
  constructor; [assumption|].
  apply Forall_forall. intros y Hy.
  destruct (take_In l idx y Hy) as [j [Hj Ej]].
  rewrite Forall_forall in Hall. now apply (Hall j Hj).
Qed.

(** ** Numbered cells *)

Lemma enumerate_fst {A : Type} (n : nat) (l : list A) :
  map fst (enumerate_from n l) = seq n (List.length l).
Proof.
  revert n. induction l as [|x l IH]; intros n; simpl; [reflexivity|].
  now rewrite IH.
Qed.

Lemma enumerate_nth {A : Type} (n : nat) (l : list A) (p : nat * A) :
  In p (enumerate_from n l) ->
  (n <= fst p)%nat /\ nth_error l (fst p - n) = Some (snd p).
Proof.
  revert n. induction l as [|x l IH]; intros n; simpl; [tauto|].
  intros [<-|H]; simpl.
  - rewrite Nat.sub_diag. auto.
  - destruct (IH _ H) as [H1 H2]. split; [lia|].
    replace (fst p - n)%nat with (S (fst p - S n)) by lia. exact H2.
Qed.

Lemma enumerate_cell {A : Type} (l : list A) (p : nat * A) :
  In p (enumerate_from 0 l) -> nth_error l (fst p) = Some (snd p).
Proof.
  intros H. apply enumerate_nth in H. now rewrite Nat.sub_0_r in H.
Qed.

Lemma non_nans_In (e : list (nat * option Q)) (c : nat * Q) :
  In c (non_nans e) <-> In (fst c, Some (snd c)) e.
Proof.
  destruct c as [i q]. simpl.
  induction e as [|[j [a|]] e IH]; simpl.
  - tauto.
  - rewrite IH. split; intros [H|H]; auto; left; congruence.
  - rewrite IH. split; [auto | intros [H|H]; [discriminate | auto]].
Qed.

Lemma positions_split (e : list (nat * option Q)) :
  Permutation (map fst (non_nans e) ++ nan_idx e) (map fst e).
Proof.
  induction e as [|[j [a|]] e IH]; simpl.
  - constructor.
  - now constructor.
  - symmetry. apply Permutation_cons_app. now symmetry.
Qed.

Lemma nan_idx_none (e : list (nat * option Q)) :
  Forall (fun c => snd c <> None) e -> nan_idx e = [].
Proof.
  induction 1 as [|[j [a|]] e Hc _ IH]; simpl; auto.
  now elim Hc.
Qed.

(** ** [sort_values] under numpy's promise *)

Lemma cell_at (cells : list (nat * Q)) (i p : nat) :
  nth_error (map fst cells) i = Some p ->
  exists q, In (p, q) cells /\ nth i (map snd cells) 0%Q = q.
Proof.
  rewrite nth_error_map. destruct (nth_error cells i) as [[p' q]|] eqn:E; [|discriminate].
  simpl. intros [= <-]. exists q. split.
  - eapply nth_error_In, E.
  - apply nth_error_nth. rewrite nth_error_map, E. reflexivity.
Qed.

Section RankingFacts.
Variable argsort : list Q -> list nat.
Hypothesis promise : argsort_contract argsort.

Lemma nargsort_desc_perm (items : list (option Q)) :
  Permutation (nargsort_desc argsort items) (seq 0 (List.length items)).
Proof.
  unfold nargsort_desc.
  set (e := enumerate_from 0 items).
  rewrite <- (enumerate_fst 0 items). fold e.
  rewrite <- (positions_split e).
  apply Permutation_app_tail.
  rewrite <- Permutation_rev.
  rewrite take_perm.
  - rewrite map_rev. symmetry. apply Permutation_rev.
  - destruct (promise (map snd (rev (non_nans e)))) as [H _].
    now rewrite !length_map in *.
Qed.

Lemma sort_values_perm {K : Type} (kpi : MetricKind) (frame : list (Group K)) :
  Permutation (sort_values argsort kpi frame) frame.
Proof.
  unfold sort_values. apply take_perm.
  rewrite <- (length_map (metric kpi)). apply nargsort_desc_perm.
Qed.

Lemma nargsort_desc_sorted (items : list (option Q)) :
  Forall (fun x => x <> None) items ->
  StronglySorted
    (fun p p' => forall q q',
       nth_error items p = Some (Some q) ->
       nth_error items p' = Some (Some q') -> (q' <= q)%Q)
    (nargsort_desc argsort items).
Proof.
  intros Hnn. unfold nargsort_desc.
  set (e := enumerate_from 0 items).
  rewrite (nan_idx_none e), app_nil_r.
  2:{ apply Forall_forall. intros c Hc. apply enumerate_cell in Hc.
      rewrite Forall_forall in Hnn. eapply Hnn, nth_error_In, Hc. }
  set (cells := rev (non_nans e)).
  apply (StronglySorted_rev
           (fun p' p => forall q q',
              nth_error items p = Some (Some q) ->
              nth_error items p' = Some (Some q') -> (q' <= q)%Q)).
  apply take_sorted.
  destruct (promise (map snd cells)) as [_ Hs].
  eapply StronglySorted_weaken; [|exact Hs].
  intros i j _ _ Hij p' p Hp' Hp q q' Hq Hq'.
  destruct (cell_at cells i p' Hp') as [a [Ha Ea]].
  destruct (cell_at cells j p Hp) as [b [Hb Eb]].
  assert (Hcell : forall c, In c cells -> nth_error items (fst c) = Some (Some (snd c))).
  { intros c Hc. unfold cells in Hc. apply in_rev, non_nans_In in Hc.
    apply (enumerate_cell items (fst c, Some (snd c))) in Hc. exact Hc. }
  apply Hcell in Ha, Hb. simpl in Ha, Hb.
  cbv beta in Hij. rewrite Ea, Eb in Hij. congruence.
Qed.

Lemma sort_values_descending {K : Type} (kpi : MetricKind) (frame : list (Group K)) :
  Forall (fun g => metric kpi g <> None) frame ->
  descending kpi (sort_values argsort kpi frame).
Proof.
  intros Hnn. split.
  - apply (Permutation_Forall (Permutation_sym (sort_values_perm kpi frame))), Hnn.
  - unfold sort_values. apply take_sorted.
    eapply StronglySorted_weaken; [|apply nargsort_desc_sorted].
    + intros i j _ _ Hij g h Hg Hh a b Ha Hb.
      apply (Hij a b); rewrite nth_error_map.
      * now rewrite Hg; simpl; rewrite Ha.
      * now rewrite Hh; simpl; rewrite Hb.
    + now apply Forall_map.
Qed.
End RankingFacts.

(** ** Insertion sorts keep numpy's promise *)

Lemma argsort_by_perm (c : nat * Q -> nat * Q -> bool) (v : list Q) :
  Permutation (argsort_by c v) (seq 0 (List.length v)).
Proof.
  unfold argsort_by. rewrite <- (enumerate_fst 0 v).
  apply Permutation_map, sorted_perm.
Qed.

Lemma argsort_by_sorted (c : nat * Q -> nat * Q -> bool) (R : Q -> Q -> Prop) (v : list Q) :
  (forall p q, c p q = true \/ c q p = true) ->
  (forall p q r, c p q = true -> c q r = true -> c p r = true) ->
  (forall p q, c p q = true -> R (snd p) (snd q)) ->
  StronglySorted (fun i j => R (nth i v 0%Q) (nth j v 0%Q)) (argsort_by c v).
Proof.
  intros Htot Htrans HR. unfold argsort_by.
  apply StronglySorted_map.
  eapply StronglySorted_weaken; [|apply (sorted_ascending c Htot Htrans)].
  intros p q Hp Hq Hpq.
  apply (Permutation_in _ (sorted_perm c _)), enumerate_cell in Hp, Hq.
  rewrite (nth_error_nth _ _ _ Hp), (nth_error_nth _ _ _ Hq). now apply HR.
Qed.

Lemma Qle_bool_total (x y : Q) : Qle_bool x y = true \/ Qle_bool y x = true.
Proof.
  rewrite !Qle_bool_iff. destruct (Qlt_le_dec x y) as [H|H]; [left | right].
  - now apply Qlt_le_weak.
  - assumption.
Qed.

Lemma Qle_bool_trans (x y z : Q) :
  Qle_bool x y = true -> Qle_bool y z = true -> Qle_bool x z = true.
Proof. rewrite !Qle_bool_iff. apply Qle_trans. Qed.

Lemma argsort_stable_promise : argsort_contract argsort_stable.
Proof.
  intros v. split; [apply argsort_by_perm|].
  apply (argsort_by_sorted _ Qle).
  - intros p q. apply Qle_bool_total.
  - intros p q r. apply Qle_bool_trans.
  - intros p q. apply Qle_bool_iff.
Qed.

(** ** The ranked top ten *)

Lemma product_grouped_length (df : DataFrame) :
  List.length (product_grouped df) = distinct_products df.
Proof.
  unfold product_grouped, groupby_sum, group_keys, options, distinct_products.
  rewrite !length_map. apply Permutation_length, sorted_perm.
Qed.

Lemma product_grouped_metric (kpi : MetricKind) (df : DataFrame) :
  Forall (fun g => metric kpi g <> None) (product_grouped df).
Proof.
  unfold product_grouped. apply Forall_map, Forall_forall. intros s _.
  destruct kpi; simpl; try discriminate.
  unfold truediv. now rewrite replace_0_1_nonzero.
Qed.

(** X18: whatever routine keeps numpy's promise, the sorted product frame
    is a rearrangement of the product groups in which every group has a
    value in the chosen column and no group stands before a group of
    greater value; the ranking is its first ten rows, so it holds
    min(10, number of distinct products) entries in descending order of
    that value. *)
Theorem ranked_top_10 (argsort : list Q -> list nat) (kpi : MetricKind)
    (df : DataFrame) :
  argsort_contract argsort ->
  Permutation (sort_values argsort kpi (product_grouped df)) (product_grouped df)
  /\ descending kpi (sort_values argsort kpi (product_grouped df))
  /\ top_10 argsort kpi df = firstn 10 (sort_values argsort kpi (product_grouped df))
  /\ List.length (top_10 argsort kpi df) = Nat.min 10 (distinct_products df)
  /\ descending kpi (top_10 argsort kpi df).
Proof.
  intros promise.
  pose proof (sort_values_perm argsort promise kpi (product_grouped df)) as Hperm.
  pose proof (sort_values_descending argsort promise kpi (product_grouped df)
                (product_grouped_metric kpi df)) as Hdesc.
  split; [exact Hperm|]. split; [exact Hdesc|]. split; [reflexivity|].
  destruct Hdesc as [Hdef Hsorted]. unfold top_10, head. repeat split.
  - rewrite length_firstn, (Permutation_length Hperm), product_grouped_length.
    reflexivity.
  - rewrite Forall_forall in *. intros g Hg. apply Hdef.
    rewrite <- (firstn_skipn 10 (sort_values _ _ _)). apply in_or_app. now left.
  - now apply StronglySorted_firstn.
Qed.

Lemma ranked_top_10_witness :
  List.length (top_10 argsort_stable KSales [row_west; row_east; row_unnamed]) = 2%nat
  /\ descending KSales (top_10 argsort_stable KSales [row_west; row_east; row_unnamed]).
Proof.
  destruct (ranked_top_10 argsort_stable KSales [row_west; row_east; row_unnamed]
              argsort_stable_promise) as [_ [_ [_ [H1 H2]]]].
  split; [exact H1 | exact H2].
Defined.

(** * Further properties of the page *)

(** ** How the stages compose *)

Lemma Retains_compose (P Q : Row -> Prop) (a b c : DataFrame) :
  Retains P a b -> Retains Q b c -> Retains (fun r => P r /\ Q r) a c.
Proof.
  intros Hab. revert c.
  induction Hab as [|r a b Hr _ IH|r a b Hr _ IH]; intros c Hbc.
  - inversion Hbc; subst. constructor.
  - inversion Hbc; subst.
    + apply Retains_keep; [tauto | now apply IH].
    + apply Retains_drop; [tauto | now apply IH].
  - apply Retains_drop; [tauto | now apply IH].
Qed.

Lemma Retains_ext (P Q : Row -> Prop) (a b : DataFrame) :
  (forall r, P r <-> Q r) -> Retains P a b -> Retains Q a b.
Proof.
  intros H. induction 1 as [|r a b Hr _ IH|r a b Hr _ IH].
  - constructor.
  - apply Retains_keep; [now apply H | assumption].
  - apply Retains_drop; [now rewrite <- H | assumption].
Qed.

Lemma Retains_commute (P Q : Row -> Prop) (a b b' c c' : DataFrame) :
  Retains P a b -> Retains Q b c ->
  Retains Q a b' -> Retains P b' c' -> c = c'.
Proof.
  intros H1 H2 H3 H4.
  apply (Retains_unique (fun r => P r /\ Q r) a).
  - eapply Retains_compose; eassumption.
  - eapply Retains_ext; [|eapply Retains_compose; eassumption].
    intros r. simpl. tauto.
Qed.

(** X1: the working set is the data set with exactly those rows struck
    out that fail one of the five tests: the rows that pass the region,
    state, category and sub-category selections and lie in the date range
    stay, once each and in the data set's order. *)
Theorem working_set_rows (df_original : DataFrame) (i : Inputs) :
  Retains
    (fun r => passes Region (selected_region i) r
              /\ passes State (selected_state i) r
              /\ passes Category (selected_category i) r
              /\ passes Sub_Category (selected_subcat i) r
              /\ within (from_date i) (to_date i) r)
    df_original (df_final df_original i).
Proof.
  unfold df_final, df_subcat, df_filtered_category, df_filtered_state,
    df_filtered_region.
  eapply Retains_ext.
  2:{ eapply Retains_compose; [|apply date_stage_Retains].
      eapply Retains_compose; [|apply narrow_Retains].
      eapply Retains_compose; [|apply narrow_Retains].
      eapply Retains_compose; [|apply narrow_Retains].
      apply narrow_Retains. }
  intros r. simpl. tauto.
Qed.

(** X2: the order of the stages does not matter to the rows that come
    out: two categorical stages may be swapped, and the date range may be
    applied before a categorical stage instead of after it. *)
Theorem stages_commute (col1 col2 : Row -> option string) (s1 s2 : string)
    (lo hi : Z) (df : DataFrame) :
  narrow col1 s1 (narrow col2 s2 df) = narrow col2 s2 (narrow col1 s1 df)
  /\ date_stage lo hi (narrow col1 s1 df) = narrow col1 s1 (date_stage lo hi df).
Proof.
  split.
  - eapply Retains_commute; apply narrow_Retains.
  - eapply Retains_commute;
      first [apply narrow_Retains | apply date_stage_Retains].
Qed.

(** ** Select boxes and date widgets *)

Lemma narrow_offered_nonempty (col : Row -> option string) (selected : string)
    (df : DataFrame) :
  df <> [] -> offered (str_options (map col df)) selected ->
  narrow col selected df <> [].
Proof.
  intros Hne [->|Hin].
  - now rewrite narrow_All.
  - apply str_options_In in Hin. destruct Hin as [r [Hr Hc]].
    assert (H : In r (narrow col selected df)).
    { apply narrow_In. split; [assumption | now right]. }
    intros E. rewrite E in H. contradiction.
Qed.

Lemma narrow_nil (col : Row -> option string) (selected : string) :
  narrow col selected [] = [].
Proof. unfold narrow. now destruct (negb (String.eqb selected All)). Qed.

Lemma narrowed_frame_nonempty (df_original : DataFrame) (i : Inputs) :
  df_original <> [] -> valid_selection df_original i ->
  df_subcat df_original i <> [].
Proof.
  intros Hne [H1 [H2 [H3 H4]]].
  unfold df_subcat. apply narrow_offered_nonempty; [|exact H4].
  unfold df_filtered_category. apply narrow_offered_nonempty; [|exact H3].
  unfold df_filtered_state. apply narrow_offered_nonempty; [|exact H2].
  unfold df_filtered_region. now apply narrow_offered_nonempty.
Qed.

(** X3: the select boxes cannot empty the frame: on a data set with at
    least one row, when every box returns "All" or one of the options it
    showed, the frame handed to the date widgets has at least one row, so
    an empty working set can only come from the date range. *)
Theorem offered_selection_nonempty (df_original : DataFrame) (i : Inputs) :
  df_original <> [] -> valid_selection df_original i ->
  df_subcat df_original i <> []
  /\ (df_final df_original i = [] ->
      Forall (fun r => ~ within (from_date i) (to_date i) r)
        (df_subcat df_original i)).
Proof.
  intros Hne Hv. split; [now apply narrowed_frame_nonempty|].
  intros E. apply Forall_forall. intros r Hr Hw.
  assert (H : In r (df_final df_original i)).
  { unfold df_final.
    apply (Retains_In _ _ _ r (date_stage_Retains _ _ _)). now split. }
  rewrite E in H. contradiction.
Qed.

Lemma offered_selection_nonempty_witness :
  df_subcat [row_west; row_east; row_unnamed] (pick_west_california 19358 19360)
  <> [].
Proof.
  apply (offered_selection_nonempty [row_west; row_east; row_unnamed]
           (pick_west_california 19358 19360)).
  - discriminate.
  - unfold valid_selection, offered. vm_compute. tauto.
Defined.

(** X4: the fall-back of lines 66-69 never changes the bounds of the date
    widgets: when every box returns "All" or an option it showed, the
    bounds are taken from the narrowed frame itself. *)
Theorem date_bounds_from_narrowed_frame (df_original : DataFrame) (i : Inputs) :
  valid_selection df_original i ->
  date_source df_original i = df_subcat df_original i.
Proof.
  intros Hv. unfold date_source.
  destruct (empty (df_subcat df_original i)) eqn:E; [|reflexivity].
  apply empty_true in E. rewrite E.
  destruct df_original as [|r df]; [reflexivity|].
  exfalso. apply (narrowed_frame_nonempty (r :: df) i); [discriminate | | ]; assumption.
Qed.

Lemma date_bounds_from_narrowed_frame_witness :
  date_source [row_west; row_east; row_unnamed] (pick_west_california 19358 19360)
  = [row_west].
Proof.
  rewrite date_bounds_from_narrowed_frame.
  - reflexivity.
  - unfold valid_selection, offered. vm_compute. tauto.
Defined.

Lemma col_bounds (col : list Z) :
  match col_min col, col_max col with
  | Some lo, Some hi =>
      lo <= hi /\ In lo col /\ In hi col /\ Forall (fun x => lo <= x <= hi) col
  | None, None => col = []
  | _, _ => False
  end.
Proof.
  induction col as [|x col IH]; simpl; [reflexivity|].
  destruct (col_min col) as [lo|], (col_max col) as [hi|]; try contradiction.
  - destruct IH as [H1 [H2 [H3 H4]]].
    repeat split.
    + lia.
    + destruct (Z.min_spec x lo) as [[_ ->]|[_ ->]]; auto.
    + destruct (Z.max_spec x hi) as [[_ ->]|[_ ->]]; auto.
    + constructor; [lia|]. eapply Forall_impl; [|exact H4]. simpl. lia.
  - subst col. repeat split; auto; try lia. constructor; [lia | constructor].
Qed.

(** X5: the bounds of the date widgets exist exactly when the data set has
    a row; then the lower one is not after the upper one, each is the
    order instant of a row of the frame they are taken from, and every row
    of that frame lies between them. *)
Theorem date_bounds_cover (df_original : DataFrame) (i : Inputs) :
  match min_date df_original i, max_date df_original i with
  | Some lo, Some hi =>
      df_original <> []
      /\ lo <= hi
      /\ (exists r, In r (date_source df_original i) /\ Order_Date r = lo)
      /\ (exists r, In r (date_source df_original i) /\ Order_Date r = hi)
      /\ Forall (fun r => lo <= Order_Date r <= hi) (date_source df_original i)
  | None, None => df_original = []
  | _, _ => False
  end.
Proof.
  unfold min_date, max_date.
  pose proof (col_bounds (map Order_Date (date_source df_original i))) as H.
  assert (Hsrc : date_source df_original i = [] -> df_original = []).
  { unfold date_source.
    destruct (empty (df_subcat df_original i)) eqn:E; [auto|].
    intros E'. rewrite E' in E. discriminate. }
  destruct (col_min _) as [lo|], (col_max _) as [hi|]; try contradiction.
  - destruct H as [H1 [H2 [H3 H4]]].
    apply in_map_iff in H2, H3.
    destruct H2 as [r2 [E2 I2]], H3 as [r3 [E3 I3]].
    repeat split.
    + intros E. destruct (date_source df_original i) eqn:Es; [contradiction|].
      unfold date_source in Es. rewrite E in Es.
      unfold df_subcat, df_filtered_category, df_filtered_state,
        df_filtered_region in Es.
      rewrite !narrow_nil in Es. discriminate.
    + assumption.
    + now exists r2.
    + now exists r3.
    + now apply Forall_map in H4.
  - apply Hsrc. now apply map_eq_nil in H.
Qed.

Lemma Retains_filter_in (P : Row -> Prop) (f : Row -> bool) (df : DataFrame) :
  (forall r, In r df -> (f r = true <-> P r)) -> Retains P df (filter f df).
Proof.
  induction df as [|r df IH]; intros Hf; simpl; [constructor|].
  assert (IH' : Retains P df (filter f df)).
  { apply IH. intros x Hx. apply Hf. now right. }
  destruct (f r) eqn:E.
  - apply Retains_keep; [apply Hf; simpl; auto | assumption].
  - apply Retains_drop; [|assumption].
    rewrite <- (Hf r (or_introl eq_refl)). congruence.
Qed.

Lemma midnight_before (instant : Z) : to_datetime (date_of instant) <= instant.
Proof.
  unfold to_datetime, date_of, ns_per_day.
  rewrite Z.mul_comm. apply Z.mul_div_le. lia.
Qed.

(** X6: when both date widgets are left at the dates they start with, the
    lower bound strikes nothing out: the working set is the narrowed frame
    without the rows later than midnight of its last day, and it is the
    whole narrowed frame when the latest order instant is a midnight. *)
Theorem default_dates_keep (df_original : DataFrame) (i : Inputs) :
  df_subcat df_original i <> [] ->
  default_from df_original i = Some (from_date i) ->
  default_to df_original i = Some (to_date i) ->
  Retains (fun r => Order_Date r <= to_datetime (to_date i))
    (df_subcat df_original i) (df_final df_original i)
  /\ (max_date df_original i = Some (to_datetime (to_date i)) ->
      df_final df_original i = df_subcat df_original i).
Proof.
  intros Hne Hfrom Hto.
  assert (Hsrc : date_source df_original i = df_subcat df_original i).
  { unfold date_source. destruct (empty (df_subcat df_original i)) eqn:E; [|reflexivity].
    apply empty_true in E. contradiction. }
  unfold default_from, default_to, min_date, max_date in *. rewrite Hsrc in *.
  pose proof (col_bounds (map Order_Date (df_subcat df_original i))) as Hb.
  destruct (col_min _) as [lo|]; [|discriminate].
  destruct (col_max _) as [hi|]; [|discriminate].
  simpl in Hfrom, Hto. injection Hfrom as Hfrom. injection Hto as Hto.
  destruct Hb as [_ [_ [_ Hall]]]. rewrite Forall_map, Forall_forall in Hall.
  pose proof (midnight_before lo) as Hlo. rewrite Hfrom in Hlo.
  split.
  - unfold df_final, date_stage. apply Retains_filter_in.
    intros r Hr. specialize (Hall r Hr).
    rewrite in_range_within. unfold within. lia.
  - intros [= ->]. unfold df_final, date_stage. apply filter_true.
    apply Forall_forall. intros r Hr. specialize (Hall r Hr).
    apply in_range_within. unfold within. lia.
Qed.

Lemma default_dates_keep_witness :
  df_final [row_west; row_east; row_unnamed] (pick_all 19358 19360)
  = [row_west; row_east; row_unnamed].
Proof.
  destruct (default_dates_keep [row_west; row_east; row_unnamed]
              (pick_all 19358 19360)) as [_ H].
  - discriminate.
  - reflexivity.
  - reflexivity.
  - apply H. reflexivity.
Defined.

(** ** The grouped frames *)

Lemma daily_groups_partition (df : DataFrame) :
  Permutation
    (List.concat (map (members Z.eqb (fun r => Some (Order_Date r)) df)
                    (group_keys Z.eqb Z.leb (fun r => Some (Order_Date r)) df)))
    df.
Proof.
  rewrite (members_partition Z.eqb _ Z.eqb_eq).
  - rewrite (keyed_in_group_keys Z.eqb Z.leb _ Z.eqb_eq).
    rewrite filter_true; [reflexivity|].
    apply Forall_forall. reflexivity.
  - apply options_NoDup, Z.eqb_eq.
Qed.

(** X7: every row of a frame belongs to exactly one day's group: the
    members of the daily groups, taken group after group, are the rows of
    the frame, each once; and the per-day sums of quantity, which are
    integer sums, add up to the sum of the quantity column over the
    frame.  (Nothing is said of how the float sums of sales and of profit
    regroup.) *)
Theorem daily_sums_partition (df : DataFrame) :
  Permutation
    (List.concat (map (members Z.eqb (fun r => Some (Order_Date r)) df)
                    (map gkey (daily_grouped df))))
    df
  /\ sum_int64 (map gQuantity (daily_grouped df)) = sum_int64 (map Quantity df).
Proof.
  unfold daily_grouped at 1. rewrite grouped_keys. split.
  - apply daily_groups_partition.
  - rewrite <- (sum_int64_perm _ _
                 (Permutation_map Quantity (daily_groups_partition df))).
    rewrite concat_map, sum_int64_concat.
    unfold daily_grouped, groupby_sum. rewrite !map_map. reflexivity.
Qed.

Lemma ascending_strict {K : Type} (leb : K -> K -> bool) (l : list K) :
  ascending leb l -> NoDup l ->
  StronglySorted (fun x y => leb x y = true /\ x <> y) l.
Proof.
  unfold ascending. induction 1 as [|x l Hs IH Hall]; intros Hnd; constructor.
  - apply IH. now inversion Hnd.
  - inversion Hnd as [|? ? Hx _]; subst.
    rewrite Forall_forall in *. intros y Hy. split; [now apply Hall|].
    intros ->. contradiction.
Qed.

Lemma Z_leb_total (x y : Z) : (x <=? y) = true \/ (y <=? x) = true.
Proof. rewrite !Z.leb_le. lia. Qed.

Lemma Z_leb_trans (x y z : Z) :
  (x <=? y) = true -> (y <=? z) = true -> (x <=? z) = true.
Proof. rewrite !Z.leb_le. lia. Qed.

(** X8: both grouped frames list their keys in strictly ascending order:
    the daily frame has one row for each order instant of the frame, the
    product frame one row for each product name of a non-blank cell, and
    neither has a row for anything else. *)
Theorem grouped_frames_keyed (df : DataFrame) :
  StronglySorted Z.lt (map gkey (daily_grouped df))
  /\ (forall d, In d (map gkey (daily_grouped df)) <-> In d (map Order_Date df))
  /\ StronglySorted (fun a b => String.ltb a b = true) (map gkey (product_grouped df))
  /\ (forall p, In p (map gkey (product_grouped df)) <->
        exists r, In r df /\ Product_Name r = Some p).
Proof.
  unfold daily_grouped, product_grouped. rewrite !grouped_keys.
  unfold group_keys. repeat split.
  - eapply StronglySorted_weaken.
    2:{ apply ascending_strict.
        - apply options_ascending; [apply Z_leb_total | apply Z_leb_trans].
        - apply options_NoDup, Z.eqb_eq. }
    intros x y _ _ [H1 H2]. apply Z.leb_le in H1. lia.
  - rewrite (options_In _ _ Z.eqb_eq), !in_map_iff.
    intros [r [E Hr]]. exists r. split; [congruence | assumption].
  - rewrite (options_In _ _ Z.eqb_eq), !in_map_iff.
    intros [r [E Hr]]. exists r. split; [congruence | assumption].
  - eapply StronglySorted_weaken.
    2:{ apply ascending_strict.
        - apply str_options_ascending.
        - apply str_options_NoDup. }
    intros x y _ _ [H1 H2]. unfold String.leb in H1. unfold String.ltb.
    destruct (String.compare x y) eqn:E; try reflexivity; try discriminate.
    apply String.compare_eq_iff in E. contradiction.
  - apply (str_options_In Product_Name).
  - apply (str_options_In Product_Name).
Qed.

(** X9: every row of either grouped frame has a margin rate, never an
    undefined quotient: the group's profit divided by its sales, and, in a
    group whose sales are 0, its profit divided by 1. *)
Theorem grouped_margin_defined (df : DataFrame) :
  Forall (fun g => gMargin_Rate g =
            Some (if Qeq_bool (gSales g) 0 then gProfit g / 1
                  else gProfit g / gSales g)%Q)
    (daily_grouped df)
  /\ Forall (fun g => gMargin_Rate g =
            Some (if Qeq_bool (gSales g) 0 then gProfit g / 1
                  else gProfit g / gSales g)%Q)
    (product_grouped df).
Proof.
  unfold daily_grouped, product_grouped.
  split; apply Forall_map, Forall_forall; intros s _;
    apply (group_margin_guard s).
Qed.

(** ** The ranking against the products it leaves out *)

Lemma StronglySorted_app_inv {A : Type} (R : A -> A -> Prop) (l1 l2 : list A) :
  StronglySorted R (l1 ++ l2) ->
  forall x y, In x l1 -> In y l2 -> R x y.
Proof.
  induction l1 as [|a l1 IH]; simpl; intros Hs x y Hx Hy; [contradiction|].
  inversion Hs as [|? ? Hs' Hall]; subst.
  destruct Hx as [<-|Hx].
  - rewrite Forall_forall in Hall. apply Hall, in_or_app. now right.
  - now apply IH.
Qed.

(** X10: whatever routine keeps numpy's promise, a product group that is
    not among the ten ranked does not outrank any of them: its value in
    the chosen column is at most the value of every ranked group. *)
Theorem top_10_outranks_rest (argsort : list Q -> list nat) (kpi : MetricKind)
    (df : DataFrame) (h : Group string) :
  argsort_contract argsort ->
  In h (product_grouped df) ->
  ~ In h (top_10 argsort kpi df) ->
  Forall (fun g => metric_ge kpi g h) (top_10 argsort kpi df).
Proof.
  intros promise Hin Hout.
  pose proof (sort_values_perm argsort promise kpi (product_grouped df)) as Hperm.
  destruct (sort_values_descending argsort promise kpi (product_grouped df)
              (product_grouped_metric kpi df)) as [_ Hsorted].
  unfold top_10, head in *.
  apply (Permutation_in _ (Permutation_sym Hperm)) in Hin.
  rewrite <- (firstn_skipn 10) in Hin, Hsorted.
  apply in_app_or in Hin. destruct Hin as [Hin|Hin]; [contradiction|].
  apply Forall_forall. intros g Hg.
  now apply (StronglySorted_app_inv _ _ _ Hsorted).
Qed.

Lemma top_10_outranks_rest_witness :
  Forall (fun g => metric_ge KSales g (mkGroup "A"%string 1 1 1 (Some 1%Q)))
    (top_10 argsort_stable KSales catalogue).
Proof.
  apply top_10_outranks_rest.
  - apply argsort_stable_promise.
  - vm_compute. left. reflexivity.
  - vm_compute. intros H.
    repeat (destruct H as [H|H]; [discriminate|]). exact H.
Defined.

(** X11: whatever routine keeps numpy's promise, with ten distinct
    products or fewer the ranking leaves no product group out: it is a
    rearrangement of the whole product frame. *)
Theorem few_products_all_ranked (argsort : list Q -> list nat) (kpi : MetricKind)
    (df : DataFrame) :
  argsort_contract argsort ->
  (distinct_products df <= 10)%nat ->
  Permutation (top_10 argsort kpi df) (product_grouped df).
Proof.
  intros promise Hfew.
  pose proof (sort_values_perm argsort promise kpi (product_grouped df)) as Hperm.
  unfold top_10, head. rewrite firstn_all2; [assumption|].
  now rewrite (Permutation_length Hperm), product_grouped_length.
Qed.

Lemma few_products_all_ranked_witness :
  Permutation (top_10 argsort_stable KProfit [row_west; row_east; row_unnamed])
    (product_grouped [row_west; row_east; row_unnamed]).
Proof.
  apply few_products_all_ranked.
  - apply argsort_stable_promise.
  - vm_compute. lia.
Defined.

(** ** The page as a whole *)

Lemma min_date_none (df_original : DataFrame) (i : Inputs) :
  min_date df_original i = None <-> df_original = [].
Proof.
  unfold min_date.
  pose proof (col_bounds (map Order_Date (date_source df_original i))) as H.
  split.
  - intros E. rewrite E in H.
    destruct (col_max _); [contradiction|].
    apply map_eq_nil in H. unfold date_source in H.
    destruct (empty (df_subcat df_original i)) eqn:Ee; [assumption|].
    rewrite H in Ee. discriminate.
  - clear H. intros ->.
    unfold date_source, df_subcat, df_filtered_category, df_filtered_state,
      df_filtered_region.
    rewrite !narrow_nil. reflexivity.
Qed.

(** X12: the script's own statements stop the page before the first pie
    chart in three cases.  On an empty data set the date widget is handed
    a missing date and raises (line 74).  On a data set with rows and an
    empty working set, line 294 reads the unbound name [selected_kpi].  On
    a working set with rows and the KPI "Margin Rate", line 294 names a
    column that [df] does not have: only the two grouped frames were given
    it. *)
Theorem page_stops_before_pies (argsort : list Q -> list nat)
    (df_original : DataFrame) (i : Inputs) :
  (df_original = [] ->
   script argsort df_original i = Raise (Rejected "st.sidebar.date_input"))
  /\ (df_original <> [] -> df_final df_original i = [] ->
      script argsort df_original i = Raise (NameError "selected_kpi"))
  /\ (df_final df_original i <> [] -> radio_kpi i = KMargin_Rate ->
      script argsort df_original i = Raise (Rejected "px.pie")).
Proof.
  unfold script. repeat split.
  - intros ->. rewrite (proj2 (min_date_none [] i) eq_refl). reflexivity.
  - intros Hne E.
    destruct (min_date df_original i) eqn:Em.
    + simpl. unfold selected_kpi. rewrite E. reflexivity.
    + apply min_date_none in Em. contradiction.
  - intros Hne E.
    destruct (min_date df_original i) eqn:Em.
    + simpl. unfold selected_kpi.
      destruct (df_final df_original i); [contradiction|].
      simpl. rewrite E. reflexivity.
    + apply min_date_none in Em. subst df_original. exfalso. apply Hne.
      unfold df_final, df_subcat, df_filtered_category, df_filtered_state,
        df_filtered_region.
      rewrite !narrow_nil. reflexivity.
Qed.

(** ** Numbers on the tiles *)

(** X14: the number on the quantity tile and on the margin tile of a
    frame with at least one row is always defined: the quantity total
    divided by 1000, and the profit total over the sales total times 100,
    or 0 when the sales total is 0. *)
Theorem tiles_defined (r : Row) (df : DataFrame) :
  total_quantity (r :: df)
    = Thousands (Some (inject_Z (sum_int64 (map Quantity (r :: df))) / 1000)%Q)
  /\ margin_rate (r :: df)
    = Percent (Some (if Qeq_bool (sum_float (map Sales (r :: df))) 0 then 0
                     else sum_float (map Profit (r :: df))
                          / sum_float (map Sales (r :: df)) * 100)%Q).
Proof.
  split.
  - reflexivity.
  - unfold margin_rate. simpl empty. cbv iota. now rewrite margin_pct_guard.
Qed.

Lemma wrap64_range (z : Z) : - 2 ^ 63 <= wrap64 z < 2 ^ 63.
Proof.
  unfold wrap64.
  pose proof (Z.mod_pos_bound (z + 2 ^ 63) (2 ^ 64) ltac:(lia)). lia.
Qed.

Lemma wrap64_small (z : Z) : - 2 ^ 63 <= z < 2 ^ 63 -> wrap64 z = z.
Proof.
  intros H. unfold wrap64. rewrite Z.mod_small; lia.
Qed.

Lemma sum_int64_wraps_exact (col : list Z) :
  sum_int64 col = wrap64 (sum_exact col).
Proof.
  induction col as [|x col IH]; simpl; [reflexivity|].
  now rewrite IH, wrap64_add_r.
Qed.

(** X15: a quantity total always lies in the range of a 64-bit integer
    and agrees with the exact sum of the column modulo 2^64; it is the
    exact sum whenever that sum lies in the range, whatever the sums of
    the column's parts do on the way. *)
Theorem sum_int64_exact (col : list Z) :
  - 2 ^ 63 <= sum_int64 col < 2 ^ 63
  /\ sum_int64 col mod 2 ^ 64 = sum_exact col mod 2 ^ 64
  /\ (- 2 ^ 63 <= sum_exact col < 2 ^ 63 -> sum_int64 col = sum_exact col).
Proof.
  rewrite sum_int64_wraps_exact. split; [apply wrap64_range|].
  split; [apply wrap64_mod | apply wrap64_small].
Qed.

Lemma sum_int64_exact_witness :
  sum_int64 [2 ^ 63 - 1; 5; - 7] = 2 ^ 63 - 3
  /\ sum_int64 [2 ^ 63 - 1; 5] = - 2 ^ 63 + 4.
Proof.
  destruct (sum_int64_exact [2 ^ 63 - 1; 5; - 7]) as [_ [_ H]].
  split.
  - apply H. vm_compute. split; [discriminate | reflexivity].
  - reflexivity.
Defined.

(** ** Widening a selection *)

Lemma Subframe_filter_weaker (f g : Row -> bool) (df : DataFrame) :
  (forall r, f r = true -> g r = true) ->
  Subframe (filter f df) (filter g df).
Proof.
  intros Hfg. induction df as [|r df IH]; simpl; [constructor|].
  destruct (f r) eqn:Ef.
  - rewrite (Hfg r Ef). now constructor.
  - destruct (g r); [now constructor | assumption].
Qed.

Lemma to_datetime_le (a b : Z) : a <= b -> to_datetime a <= to_datetime b.
Proof. unfold to_datetime, ns_per_day. lia. Qed.

(** X16: widening the date range never loses a row: with an earlier or
    equal first day and a later or equal last day, the rows kept by the
    narrower range are among the rows kept by the wider one, in the same
    order. *)
Theorem wider_range_keeps_more (lo lo' hi hi' : Z) (df : DataFrame) :
  lo' <= lo -> hi <= hi' ->
  Subframe (date_stage lo hi df) (date_stage lo' hi' df).
Proof.
  intros Hlo Hhi. apply Subframe_filter_weaker.
  intros r. rewrite !in_range_within. unfold within.
  apply to_datetime_le in Hlo, Hhi. lia.
Qed.

Lemma wider_range_keeps_more_witness :
  Subframe (date_stage 19359 19359 [row_west; row_east; row_unnamed])
    (date_stage 19358 19360 [row_west; row_east; row_unnamed]).
Proof.
  apply wider_range_keeps_more; lia.
Defined.

(** X17: choosing a value in an earlier select box never adds an option to
    a later one: every state, category and sub-category offered under any
    selection is also offered when all the earlier boxes are on "All". *)
Theorem narrowing_adds_no_option (df_original : DataFrame) (i : Inputs) :
  incl (all_states df_original i) (str_options (map State df_original))
  /\ incl (all_categories df_original i) (str_options (map Category df_original))
  /\ incl (all_subcats df_original i) (str_options (map Sub_Category df_original)).
Proof.
  unfold all_states, all_categories, all_subcats, df_filtered_category,
    df_filtered_state, df_filtered_region.
  repeat split; intros v Hv; apply str_options_In in Hv;
    destruct Hv as [r [Hr Hc]]; apply str_options_In; exists r;
    rewrite ?narrow_In in Hr; tauto.
Qed.
